(** * Wildfire Watch: the hotspot retrieval controller and its list view

    A shallow embedding of the React components of the dashboard:

    - [HotspotList]   src/components/HotspotList.tsx  (cards, stats bar)
    - [LeafletMap]    the imperative Leaflet map (marker colours)
    - [MapView]       src/components/MapView.tsx      (react-leaflet variant)
    - [LazyMapView]   the MapView variant that lazy-loads [LeafletMap]
    - [App]           the root component wiring MapView to HotspotList

    A JavaScript [number] is an IEEE 754 binary64 value, so it is embedded
    as a primitive float; a JavaScript string is its sequence of UTF-16
    code units.  React state is a record, each [setX] is a state
    transformer, and an [async] handler is split at its [await] into the
    part that runs up to the request and the part that runs when the
    promise settles. *)

From Stdlib Require Import List Bool ZArith NArith String Ascii Floats Lia.
Import ListNotations.

#[local] Set Warnings "-inexact-float".
#[local] Open Scope float_scope.

(** ** JavaScript values *)

Definition number := float.

Definition JSString := list N.

(** An ASCII literal as a JavaScript string. *)
Definition js (s : string) : JSString :=
  List.map N_of_ascii (list_ascii_of_string s).

(** [a || b] on values that are either an object (always truthy) or
    [undefined]/[null]. *)
Definition or_else {A : Type} (a : option A) (b : A) : A :=
  match a with
  | Some v => v
  | None => b
  end.

Definition or_opt {A : Type} (a b : option A) : option A :=
  match a with
  | Some v => Some v
  | None => b
  end.

(** *** String.prototype.trim

    ECMAScript strips the code units of WhiteSpace and LineTerminator
    from both ends. *)
Definition isWhiteSpace (c : N) : bool :=
  (  (c =? 9)      (* TAB *)
  || (c =? 10)     (* LF *)
  || (c =? 11)     (* VT *)
  || (c =? 12)     (* FF *)
  || (c =? 13)     (* CR *)
  || (c =? 32)     (* SPACE *)
  || (c =? 160)    (* NO-BREAK SPACE *)
  || (c =? 5760)   (* OGHAM SPACE MARK *)
  || ((8192 <=? c) && (c <=? 8202))  (* EN QUAD .. HAIR SPACE *)
  || (c =? 8232)   (* LINE SEPARATOR *)
  || (c =? 8233)   (* PARAGRAPH SEPARATOR *)
  || (c =? 8239)   (* NARROW NO-BREAK SPACE *)
  || (c =? 8287)   (* MEDIUM MATHEMATICAL SPACE *)
  || (c =? 12288)  (* IDEOGRAPHIC SPACE *)
  || (c =? 65279)  (* ZERO WIDTH NO-BREAK SPACE *) )%N.

Fixpoint trimStart (s : JSString) : JSString :=
  match s with
  | [] => []
  | c :: rest => if isWhiteSpace c then trimStart rest else s
  end.

Definition trimEnd (s : JSString) : JSString :=
  rev (trimStart (rev s)).

Definition trim (s : JSString) : JSString :=
  trimEnd (trimStart s).

(** Truthiness of a string: only the empty string is falsy. *)
Definition truthy (s : JSString) : bool :=
  match s with
  | [] => false
  | _ :: _ => true
  end.

(** *** encodeURIComponent

    It throws a URIError exactly when the string has an unpaired
    surrogate; the encoded text itself is never inspected by the
    components, so only that check is modelled. *)
Definition isHighSurrogate (c : N) : bool := ((55296 <=? c) && (c <=? 56319))%N.
Definition isLowSurrogate (c : N) : bool := ((56320 <=? c) && (c <=? 57343))%N.

Fixpoint isWellFormed (s : JSString) : bool :=
  match s with
  | [] => true
  | c :: rest =>
      if isHighSurrogate c then
        match rest with
        | d :: rest' => isLowSurrogate d && isWellFormed rest'
        | [] => false
        end
      else if isLowSurrogate c then false
      else isWellFormed rest
  end.

(** ** The interfaces shared by the components *)

Record Hotspot := {
  id : number;
  lat : number;
  lng : number;
  confidence : number;
  frp : number;
  detectionTime : JSString
}.

Record Weather := {
  temp : number;
  humidity : number;
  windSpeed : number
}.

(** ** HotspotList.tsx *)

Module HotspotList.

Definition getConfidenceColor (confidence : number) : JSString :=
  if 80 <=? confidence then js "text-danger"
  else if 50 <=? confidence then js "text-warning"
  else js "text-caution".

Definition getConfidenceBg (confidence : number) : JSString :=
  if 80 <=? confidence then js "bg-danger/20 border-danger/30"
  else if 50 <=? confidence then js "bg-warning/20 border-warning/30"
  else js "bg-caution/20 border-caution/30".

(** What a HotspotCard shows of its hotspot that depends on confidence:
    the pulsing dot and the badge. *)
Record Card := {
  index : nat;
  hotspot : Hotspot;
  dot : JSString;
  badgeBg : JSString;
  badgeColor : JSString
}.

Definition HotspotCard (h : Hotspot) (i : nat) : Card :=
  {| index := i;
     hotspot := h;
     dot := if 80 <=? confidence h then js "bg-danger"
            else if 50 <=? confidence h then js "bg-warning"
            else js "bg-caution";
     badgeBg := getConfidenceBg (confidence h);
     badgeColor := getConfidenceColor (confidence h) |}.

(** The three filters of the stats bar. *)
Definition highRisk (h : Hotspot) : bool := 80 <=? confidence h.
Definition mediumRisk (h : Hotspot) : bool :=
  (50 <=? confidence h) && (confidence h <? 80).
Definition lowRisk (h : Hotspot) : bool := confidence h <? 50.

Inductive Grid :=
| Cards (cards : list Card)
| NoHotspotsDetected.

Record View := {
  weatherCard : option Weather;
  grid : Grid;
  totalHotspots : nat;
  high : nat;
  medium : nat;
  low : nat
}.

(** [hotspots.slice(0, 5).map((hotspot, index) => ...)] *)
Fixpoint mapi {A B : Type} (f : A -> nat -> B) (i : nat) (l : list A) : list B :=
  match l with
  | [] => []
  | x :: rest => f x i :: mapi f (S i) rest
  end.

Definition HotspotList (hotspots : list Hotspot) (weather : option Weather) : View :=
  {| weatherCard := weather;
     grid := if (0 <? List.length hotspots)%nat
             then Cards (mapi HotspotCard 0 (firstn 5 hotspots))
             else NoHotspotsDetected;
     totalHotspots := List.length hotspots;
     high := List.length (filter highRisk hotspots);
     medium := List.length (filter mediumRisk hotspots);
     low := List.length (filter lowRisk hotspots) |}.


End HotspotList.

(** ** LeafletMap *)

Module LeafletMap.

(** The colour that [createMarkerIcon] paints the marker with. *)
Definition createMarkerIcon (confidence : number) : JSString :=
  if 80 <=? confidence then js "#ef4444"
  else if 50 <=? confidence then js "#f97316"
  else js "#eab308".




End LeafletMap.

(** ** App.tsx: the state of the root component *)

Module App.

Record State := {
  hotspots : list Hotspot;
  weather : option Weather
}.

Definition initialState : State :=
  {| hotspots := []; weather := None |}.

Definition setHotspots (hs : list Hotspot) (s : State) : State :=
  {| hotspots := hs; weather := weather s |}.

Definition setWeather (w : option Weather) (s : State) : State :=
  {| hotspots := hotspots s; weather := w |}.

(** [<HotspotList hotspots={hotspots} weather={weather} />] *)
Definition render (s : State) : HotspotList.View :=
  HotspotList.HotspotList (hotspots s) (weather s).

End App.

(** ** What both MapView files declare alike *)

(** The six [useState] cells of MapView. *)
Record MapViewState := {
  userLocation : option (number * number);
  mapCenter : number * number;
  hotspots : list Hotspot;
  searchQuery : JSString;
  loading : bool;
  error : option JSString
}.

Definition initialState : MapViewState :=
  {| userLocation := None;
     mapCenter := (34.0522, -118.2437);
     hotspots := [];
     searchQuery := js "";
     loading := false;
     error := None |}.

Record MapViewProps := {
  onHotspotsUpdate : option (list Hotspot -> App.State -> App.State);
  onWeatherUpdate : option (option Weather -> App.State -> App.State)
}.

(** The requests a handler hands to the browser. *)
Inductive Request :=
| NearbyHotspots (lat lng : number)   (* GET API_BASE_URL/nearby-hotspots?lat&lng *)
| NominatimSearch (q : JSString)      (* GET nominatim .../search?format=json&q= *)
| GetCurrentPosition.                 (* navigator.geolocation.getCurrentPosition *)

(** How an awaited [axios.get] settles; [data] is [response.data], which
    may be [null]. *)
Inductive Settled (A : Type) :=
| Fulfilled (data : option A)
| Rejected.
Arguments Fulfilled {A} data.
Arguments Rejected {A}.

Module Response.
(** The body of /nearby-hotspots; every field is optional. *)
Record data := {
  weather : option Weather;
  hotspots : option (list Hotspot);
  top5 : option (list Hotspot)
}.
End Response.

Module Nominatim.
(** One geocoding candidate. *)
Record place := {
  lat : JSString;
  lon : JSString
}.
End Nominatim.

(** The running page: MapView's state, its parent's state, and the
    requests sent so far, oldest first. *)
Record World := {
  view : MapViewState;
  app : App.State;
  sent : list Request
}.

Definition initialWorld : World :=
  {| view := initialState; app := App.initialState; sent := [] |}.

Definition onView (f : MapViewState -> MapViewState) (w : World) : World :=
  {| view := f (view w); app := app w; sent := sent w |}.

Definition setUserLocation (v : option (number * number)) : World -> World :=
  onView (fun s =>
    {| userLocation := v; mapCenter := mapCenter s; hotspots := hotspots s;
       searchQuery := searchQuery s; loading := loading s; error := error s |}).

Definition setMapCenter (v : number * number) : World -> World :=
  onView (fun s =>
    {| userLocation := userLocation s; mapCenter := v; hotspots := hotspots s;
       searchQuery := searchQuery s; loading := loading s; error := error s |}).

Definition setHotspots (v : list Hotspot) : World -> World :=
  onView (fun s =>
    {| userLocation := userLocation s; mapCenter := mapCenter s; hotspots := v;
       searchQuery := searchQuery s; loading := loading s; error := error s |}).

Definition setSearchQuery (v : JSString) : World -> World :=
  onView (fun s =>
    {| userLocation := userLocation s; mapCenter := mapCenter s; hotspots := hotspots s;
       searchQuery := v; loading := loading s; error := error s |}).

Definition setLoading (v : bool) : World -> World :=
  onView (fun s =>
    {| userLocation := userLocation s; mapCenter := mapCenter s; hotspots := hotspots s;
       searchQuery := searchQuery s; loading := v; error := error s |}).

Definition setError (v : option JSString) : World -> World :=
  onView (fun s =>
    {| userLocation := userLocation s; mapCenter := mapCenter s; hotspots := hotspots s;
       searchQuery := searchQuery s; loading := loading s; error := v |}).

Definition send (r : Request) (w : World) : World :=
  {| view := view w; app := app w; sent := sent w ++ [r] |}.

(** [callback?.(arg)] *)
Definition optionalCall {A : Type}
    (callback : option (A -> App.State -> App.State)) (arg : A) (w : World) : World :=
  match callback with
  | Some f => {| view := view w; app := f arg (app w); sent := sent w |}
  | None => w
  end.

Definition skip : World -> World := fun w => w.

Definition andThen (f g : World -> World) : World -> World :=
  fun w => g (f w).

Notation "f ;; g" := (andThen f g) (at level 61, right associativity).

(** The retrievals among the requests. *)
Definition isRetrieval (r : Request) : bool :=
  match r with
  | NearbyHotspots _ _ => true
  | _ => false
  end.

Definition isGeocoding (r : Request) : bool :=
  match r with
  | NominatimSearch _ => true
  | _ => false
  end.

(** ** src/components/MapView.tsx

    [render] is the state as the render that created the closures saw
    it: [fetchHotspots] is rebuilt by [useCallback] whenever [mapCenter]
    changes and reads that render's [mapCenter]; [handleSearch] reads that
    render's [searchQuery].  [now k] is the k-th reading of
    [new Date().toISOString()] during the call. *)

Module MapView.

(** The colour that [createMarkerIcon] paints the marker with. *)
Definition createMarkerIcon (confidence : number) : JSString :=
  if 80 <=? confidence then js "#ef4444"       (* danger red *)
  else if 50 <=? confidence then js "#f97316"  (* warning orange *)
  else js "#eab308".                           (* caution yellow *)

Section Component.

Variable parseFloat : JSString -> number.
Variable props : MapViewProps.

Definition mockHotspots (mapCenter : number * number) (now : nat -> JSString)
  : list Hotspot :=
  [ {| id := 1; lat := fst mapCenter + 0.1; lng := snd mapCenter + 0.1;
       confidence := 95; frp := 45.2; detectionTime := now 0%nat |};
    {| id := 2; lat := fst mapCenter - 0.15; lng := snd mapCenter + 0.2;
       confidence := 78; frp := 32.1; detectionTime := now 1%nat |};
    {| id := 3; lat := fst mapCenter + 0.2; lng := snd mapCenter - 0.1;
       confidence := 62; frp := 18.5; detectionTime := now 2%nat |};
    {| id := 4; lat := fst mapCenter - 0.08; lng := snd mapCenter - 0.15;
       confidence := 45; frp := 12.3; detectionTime := now 3%nat |};
    {| id := 5; lat := fst mapCenter + 0.25; lng := snd mapCenter + 0.05;
       confidence := 88; frp := 38.7; detectionTime := now 4%nat |} ].

Definition mockWeather : Weather :=
  {| temp := 32; humidity := 15; windSpeed := 25 |}.

(** [fetchHotspots] up to its [await axios.get]. *)
Definition fetchHotspots_begin (lat lng : number) : World -> World :=
  setLoading true ;;
  setError None ;;
  send (NearbyHotspots lat lng).

(** [fetchHotspots] from the moment the request settles.  Destructuring
    a [null] body throws inside [try], so it lands in [catch]. *)
Definition fetchHotspots_resume (render : MapViewState) (lat lng : number)
    (now : nat -> JSString) (response : Settled Response.data) : World -> World :=
  match response with
  | Fulfilled (Some data) =>
      setHotspots (or_else (Response.hotspots data) []) ;;
      optionalCall (onHotspotsUpdate props) (or_else (Response.top5 data) []) ;;
      optionalCall (onWeatherUpdate props) (Response.weather data)
  | _ =>
      setError (Some (js "Failed to fetch hotspot data. Using mock data.")) ;;
      setHotspots (mockHotspots (mapCenter render) now) ;;
      optionalCall (onHotspotsUpdate props) (mockHotspots (mapCenter render) now) ;;
      optionalCall (onWeatherUpdate props) (Some mockWeather)
  end ;;
  (* finally *)
  setLoading false.

(** A retrieval that nothing interleaves with. *)
Definition fetchHotspots (render : MapViewState) (lat lng : number)
    (now : nat -> JSString) (response : Settled Response.data) : World -> World :=
  fetchHotspots_begin lat lng ;;
  fetchHotspots_resume render lat lng now response.

(** The geolocation effect, [useEffect(..., [])]: it runs once, with the
    closures of the first render. *)
Definition useEffect_geolocation (render : MapViewState) (geolocation : bool)
  : World -> World :=
  if geolocation then send GetCurrentPosition
  else fetchHotspots_begin (fst (mapCenter render)) (snd (mapCenter render)).

Definition geolocation_success (latitude longitude : number) : World -> World :=
  setUserLocation (Some (latitude, longitude)) ;;
  setMapCenter (latitude, longitude) ;;
  fetchHotspots_begin latitude longitude.

Definition geolocation_error (render : MapViewState) : World -> World :=
  (* Use default location *)
  fetchHotspots_begin (fst (mapCenter render)) (snd (mapCenter render)).

(** Whether [handleSearch] reaches its [await]: the query is not blank
    and [encodeURIComponent] does not throw. *)
Definition handleSearch_awaits (render : MapViewState) : bool :=
  truthy (trim (searchQuery render)) && isWellFormed (searchQuery render).

Definition handleSearch_begin (render : MapViewState) : World -> World :=
  if negb (truthy (trim (searchQuery render))) then skip
  else
    setLoading true ;;
    if isWellFormed (searchQuery render)
    then send (NominatimSearch (searchQuery render))
    else
      (* URIError: catch, finally *)
      setError (Some (js "Failed to search location")) ;;
      setLoading false.

Definition handleSearch_resume (render : MapViewState)
    (response : Settled (list Nominatim.place)) : World -> World :=
  match response with
  | Fulfilled (Some (place :: _)) =>
      let newCenter := (parseFloat (Nominatim.lat place),
                        parseFloat (Nominatim.lon place)) in
      setMapCenter newCenter ;;
      fetchHotspots_begin (fst newCenter) (snd newCenter)
  | Fulfilled _ =>
      setError (Some (js "Location not found"))
  | Rejected =>
      setError (Some (js "Failed to search location"))
  end ;;
  (* finally *)
  setLoading false.

(** A submission that nothing interleaves with. *)
Definition handleSearch (render : MapViewState)
    (response : Settled (list Nominatim.place)) : World -> World :=
  handleSearch_begin render ;;
  if handleSearch_awaits render then handleSearch_resume render response else skip.

End Component.
End MapView.

(** ** The MapView that lazy-loads LeafletMap

    Here [fetchHotspots] closes over the props only, and [defaultCenter]
    is a memoised constant. *)

Module LazyMapView.
Section Component.

Variable parseFloat : JSString -> number.
Variable props : MapViewProps.

Definition defaultCenter : number * number := (34.0522, -118.2437).

Definition mockHotspots (lat lng : number) (now : nat -> JSString)
  : list Hotspot :=
  [ {| id := 1; lat := lat + 0.1; lng := lng + 0.1;
       confidence := 95; frp := 45.2; detectionTime := now 0%nat |};
    {| id := 2; lat := lat - 0.15; lng := lng + 0.2;
       confidence := 78; frp := 32.1; detectionTime := now 1%nat |};
    {| id := 3; lat := lat + 0.2; lng := lng - 0.1;
       confidence := 62; frp := 18.5; detectionTime := now 2%nat |};
    {| id := 4; lat := lat - 0.08; lng := lng - 0.15;
       confidence := 45; frp := 12.3; detectionTime := now 3%nat |};
    {| id := 5; lat := lat + 0.25; lng := lng + 0.05;
       confidence := 88; frp := 38.7; detectionTime := now 4%nat |} ].

Definition mockWeather : Weather :=
  {| temp := 32; humidity := 15; windSpeed := 25 |}.

Definition fetchHotspots_begin (lat lng : number) : World -> World :=
  setLoading true ;;
  setError None ;;
  send (NearbyHotspots lat lng).

Definition fetchHotspots_resume (lat lng : number)
    (now : nat -> JSString) (response : Settled Response.data) : World -> World :=
  match response with
  | Fulfilled (Some data) =>
      setHotspots (or_else (Response.hotspots data) []) ;;
      optionalCall (onHotspotsUpdate props)
        (or_else (or_opt (Response.top5 data) (Response.hotspots data)) []) ;;
      optionalCall (onWeatherUpdate props) (Response.weather data)
  | _ =>
      setError (Some (js "Using mock data (backend not available)")) ;;
      setHotspots (mockHotspots lat lng now) ;;
      optionalCall (onHotspotsUpdate props) (mockHotspots lat lng now) ;;
      optionalCall (onWeatherUpdate props) (Some mockWeather)
  end ;;
  (* finally *)
  setLoading false.

Definition fetchHotspots (lat lng : number)
    (now : nat -> JSString) (response : Settled Response.data) : World -> World :=
  fetchHotspots_begin lat lng ;;
  fetchHotspots_resume lat lng now response.

Definition useEffect_geolocation (geolocation : bool) : World -> World :=
  if geolocation then send GetCurrentPosition
  else fetchHotspots_begin (fst defaultCenter) (snd defaultCenter).

Definition geolocation_success (latitude longitude : number) : World -> World :=
  setUserLocation (Some (latitude, longitude)) ;;
  setMapCenter (latitude, longitude) ;;
  fetchHotspots_begin latitude longitude.

Definition geolocation_error : World -> World :=
  fetchHotspots_begin (fst defaultCenter) (snd defaultCenter).

Definition handleSearch_awaits (render : MapViewState) : bool :=
  truthy (trim (searchQuery render)) && isWellFormed (searchQuery render).

Definition handleSearch_begin (render : MapViewState) : World -> World :=
  if negb (truthy (trim (searchQuery render))) then skip
  else
    setLoading true ;;
    if isWellFormed (searchQuery render)
    then send (NominatimSearch (searchQuery render))
    else
      (* URIError: catch *)
      setError (Some (js "Failed to search location")) ;;
      setLoading false.

Definition handleSearch_resume
    (response : Settled (list Nominatim.place)) : World -> World :=
  match response with
  | Fulfilled (Some (place :: _)) =>
      let newCenter := (parseFloat (Nominatim.lat place),
                        parseFloat (Nominatim.lon place)) in
      setMapCenter newCenter ;;
      fetchHotspots_begin (fst newCenter) (snd newCenter)
  | Fulfilled _ =>
      setError (Some (js "Location not found")) ;;
      setLoading false
  | Rejected =>
      setError (Some (js "Failed to search location")) ;;
      setLoading false
  end.

Definition handleSearch (render : MapViewState)
    (response : Settled (list Nominatim.place)) : World -> World :=
  handleSearch_begin render ;;
  if handleSearch_awaits render then handleSearch_resume response else skip.

End Component.
End LazyMapView.

(** ** App.tsx: the props it hands to MapView *)

Definition appProps : MapViewProps :=
  {| onHotspotsUpdate := Some App.setHotspots;
     onWeatherUpdate := Some App.setWeather |}.

(** ** Vocabulary of the statements *)

(** A number in the ordinary sense: any binary64 value other than NaN. *)
Definition isNumber (c : number) : Prop := Prim2SF c <> S754_nan.

(** The three buckets, in the words of the design: High is 80 and
    above, Medium is from 50 up to but excluding 80, Low is below 50. *)
Module Bucket.
Definition High (c : number) : Prop := (80 <=? c) = true.
Definition Medium (c : number) : Prop := (50 <=? c) = true /\ (c <? 80) = true.
Definition Low (c : number) : Prop := (c <? 50) = true.
End Bucket.

Definition ExactlyOne (A B C : Prop) : Prop :=
  (A /\ ~ B /\ ~ C) \/ (~ A /\ B /\ ~ C) \/ (~ A /\ ~ B /\ C).

(** What every place that looks at a hotspot's confidence does with it,
    when all of them treat it as high, as medium, as low. *)
Definition TreatedAsHigh (h : Hotspot) : Prop :=
  MapView.createMarkerIcon (confidence h) = js "#ef4444"
  /\ LeafletMap.createMarkerIcon (confidence h) = js "#ef4444"
  /\ HotspotList.getConfidenceColor (confidence h) = js "text-danger"
  /\ HotspotList.getConfidenceBg (confidence h) = js "bg-danger/20 border-danger/30"
  /\ (forall i, HotspotList.dot (HotspotList.HotspotCard h i) = js "bg-danger")
  /\ HotspotList.highRisk h = true
  /\ HotspotList.mediumRisk h = false
  /\ HotspotList.lowRisk h = false.

Definition TreatedAsMedium (h : Hotspot) : Prop :=
  MapView.createMarkerIcon (confidence h) = js "#f97316"
  /\ LeafletMap.createMarkerIcon (confidence h) = js "#f97316"
  /\ HotspotList.getConfidenceColor (confidence h) = js "text-warning"
  /\ HotspotList.getConfidenceBg (confidence h) = js "bg-warning/20 border-warning/30"
  /\ (forall i, HotspotList.dot (HotspotList.HotspotCard h i) = js "bg-warning")
  /\ HotspotList.highRisk h = false
  /\ HotspotList.mediumRisk h = true
  /\ HotspotList.lowRisk h = false.

Definition TreatedAsLow (h : Hotspot) : Prop :=
  MapView.createMarkerIcon (confidence h) = js "#eab308"
  /\ LeafletMap.createMarkerIcon (confidence h) = js "#eab308"
  /\ HotspotList.getConfidenceColor (confidence h) = js "text-caution"
  /\ HotspotList.getConfidenceBg (confidence h) = js "bg-caution/20 border-caution/30"
  /\ (forall i, HotspotList.dot (HotspotList.HotspotCard h i) = js "bg-caution")
  /\ HotspotList.highRisk h = false
  /\ HotspotList.mediumRisk h = false
  /\ HotspotList.lowRisk h = true.

(** The positions the design gives the five mock hotspots around a
    coordinate. *)
Definition mockPositions (c : number * number) : list (number * number) :=
  [ (fst c + 0.1, snd c + 0.1);
    (fst c - 0.15, snd c + 0.2);
    (fst c + 0.2, snd c - 0.1);
    (fst c - 0.08, snd c - 0.15);
    (fst c + 0.25, snd c + 0.05) ].

Definition positions (hs : list Hotspot) : list (number * number) :=
  List.map (fun h => (lat h, lng h)) hs.

(** The retrievals among the requests sent. *)
Definition retrievals (w : World) : list Request :=
  filter isRetrieval (sent w).

(** Sample data for the closed examples. *)
Definition sampleClock (k : nat) : JSString := js "2024-01-01T00:00:00.000Z".

Definition sampleHotspot (n c : number) : Hotspot :=
  {| id := n; lat := 34; lng := -118; confidence := c; frp := 10;
     detectionTime := sampleClock 0 |}.

Definition sampleParseFloat (s : JSString) : number :=
  if list_eq_dec N.eq_dec s (js "40.7128") then 40.7128
  else if list_eq_dec N.eq_dec s (js "-74.0060") then -74.006
  else nan.

Definition newYork : Nominatim.place :=
  {| Nominatim.lat := js "40.7128"; Nominatim.lon := js "-74.0060" |}.

Definition withQuery (q : JSString) : MapViewState :=
  {| userLocation := userLocation initialState;
     mapCenter := mapCenter initialState;
     hotspots := hotspots initialState;
     searchQuery := q;
     loading := loading initialState;
     error := error initialState |}.

(** Where a number stands against 80 and 50. *)
Inductive Thresholds (c : number) : Prop :=
| AtLeast80 :
    (80 <=? c) = true -> (50 <=? c) = true ->
    (c <? 80) = false -> (c <? 50) = false -> Thresholds c
| From50To80 :
    (80 <=? c) = false -> (50 <=? c) = true ->
    (c <? 80) = true -> (c <? 50) = false -> Thresholds c
| Below50 :
    (80 <=? c) = false -> (50 <=? c) = false ->
    (c <? 80) = true -> (c <? 50) = true -> Thresholds c.

(** The three displayed counts are the partition counts of the hotspots
    MapView holds. *)
Definition CountsOverControllerHotspots (w : World) : Prop :=
  HotspotList.high (App.render (app w))
    = List.length (filter HotspotList.highRisk (hotspots (view w)))
  /\ HotspotList.medium (App.render (app w))
    = List.length (filter HotspotList.mediumRisk (hotspots (view w)))
  /\ HotspotList.low (App.render (app w))
    = List.length (filter HotspotList.lowRisk (hotspots (view w))).

(** A response with six high-confidence hotspots, five of them ranked. *)
Definition sixHotspots : Response.data :=
  let hs := List.map (fun n => sampleHotspot n 90) [1; 2; 3; 4; 5; 6] in
  {| Response.weather := None;
     Response.hotspots := Some hs;
     Response.top5 := Some (firstn 5 hs) |}.

(** A response whose hotspots are not ranked by the server. *)
Definition unrankedHotspot : Response.data :=
  {| Response.weather := None;
     Response.hotspots := Some [sampleHotspot 1 90];
     Response.top5 := None |}.

(** A response with no hotspots that still ranks one. *)
Definition rankedOnly : Response.data :=
  {| Response.weather := None;
     Response.hotspots := Some [];
     Response.top5 := Some [sampleHotspot 1 90] |}.

(** The five mock hotspots lie around [c], with the fixed confidences
    and radiative powers. *)
Definition MockAround (c : number * number) (hs : list Hotspot) : Prop :=
  positions hs = mockPositions c
  /\ List.map confidence hs = [95; 78; 62; 45; 88]
  /\ List.map frp hs = [45.2; 32.1; 18.5; 12.3; 38.7].

(** A handler fell back to the default coordinate: one retrieval for it,
    nothing else sent, the centre untouched, the error cleared. *)
Definition FellBackToDefault (w w' : World) : Prop :=
  sent w' = sent w ++ [NearbyHotspots 34.0522 (-118.2437)]
  /\ mapCenter (view w') = mapCenter (view w)
  /\ error (view w') = None.

(** A search adopted [target]: it is the new centre, one retrieval is
    sent for it, and the user's own location is untouched. *)
Definition Adopted (target : number * number) (w w' : World) : Prop :=
  mapCenter (view w') = target
  /\ sent w' = sent w ++ [NearbyHotspots (fst target) (snd target)]
  /\ userLocation (view w') = userLocation (view w).

(** A search found no place: the error says so, loading is over, nothing
    was sent, hotspots and centre are as before. *)
Definition NotFound (w w' : World) : Prop :=
  error (view w') = Some (js "Location not found")
  /\ loading (view w') = false
  /\ sent w' = sent w
  /\ hotspots (view w') = hotspots (view w)
  /\ mapCenter (view w') = mapCenter (view w).

(** An empty result reached the page: MapView holds no hotspot and the
    list view shows its empty state. *)
Definition ShowsNoHotspots (w' : World) : Prop :=
  hotspots (view w') = []
  /\ HotspotList.grid (App.render (app w')) = HotspotList.NoHotspotsDetected.

(** ** The page as a reactive system

    What can happen to a mounted MapView.  A handler may be the closure
    of any earlier render, so an event carries the state that render
    saw; the geolocation effect always runs with the first render. *)
Inductive Event :=
| Mounted (geolocation : bool)
| PositionFound (latitude longitude : number)
| PositionFailed
| Typed (text : JSString)
| Submitted (render : MapViewState)
| Geocoded (render : MapViewState) (response : Settled (list Nominatim.place))
| Retrieved (render : MapViewState) (lat lng : number)
    (now : nat -> JSString) (response : Settled Response.data).

Definition MapView_step (parseFloat : JSString -> number) (props : MapViewProps)
    (e : Event) : World -> World :=
  match e with
  | Mounted geolocation => MapView.useEffect_geolocation initialState geolocation
  | PositionFound latitude longitude => MapView.geolocation_success latitude longitude
  | PositionFailed => MapView.geolocation_error initialState
  | Typed text => setSearchQuery text
  | Submitted render => MapView.handleSearch_begin render
  | Geocoded render response => MapView.handleSearch_resume parseFloat render response
  | Retrieved render lat lng now response =>
      MapView.fetchHotspots_resume props render lat lng now response
  end.

Definition LazyMapView_step (parseFloat : JSString -> number) (props : MapViewProps)
    (e : Event) : World -> World :=
  match e with
  | Mounted geolocation => LazyMapView.useEffect_geolocation geolocation
  | PositionFound latitude longitude => LazyMapView.geolocation_success latitude longitude
  | PositionFailed => LazyMapView.geolocation_error
  | Typed text => setSearchQuery text
  | Submitted render => LazyMapView.handleSearch_begin render
  | Geocoded render response => LazyMapView.handleSearch_resume parseFloat response
  | Retrieved render lat lng now response =>
      LazyMapView.fetchHotspots_resume props lat lng now response
  end.

Definition run (step : Event -> World -> World) (events : list Event) (w : World) : World :=
  fold_left (fun w e => step e w) events w.

(** The messages the handlers put in [error]. *)
Definition knownMessages : list JSString :=
  [ js "Failed to fetch hotspot data. Using mock data.";
    js "Using mock data (backend not available)";
    js "Location not found";
    js "Failed to search location" ].

Definition ErrorIsKnown (w : World) : Prop :=
  match error (view w) with
  | None => True
  | Some message => In message knownMessages /\ truthy message = true
  end.

(** Same page, the [error] cell apart. *)
Definition sameButError (a b : World) : Prop :=
  userLocation (view a) = userLocation (view b)
  /\ mapCenter (view a) = mapCenter (view b)
  /\ hotspots (view a) = hotspots (view b)
  /\ searchQuery (view a) = searchQuery (view b)
  /\ loading (view a) = loading (view b)
  /\ app a = app b
  /\ sent a = sent b.

Definition noProps : MapViewProps :=
  {| onHotspotsUpdate := None; onWeatherUpdate := None |}.

(** The cards of a grid; the empty state has none. *)
Definition cardsOf (g : HotspotList.Grid) : list HotspotList.Card :=
  match g with
  | HotspotList.Cards cards => cards
  | HotspotList.NoHotspotsDetected => []
  end.


(** The string has a code unit that [trim] keeps. *)
Definition hasInk (s : JSString) : bool :=
  existsb (fun c => negb (isWhiteSpace c)) s.

(** * Comparisons of numbers against the two thresholds *)

Lemma Prim2SF_80 : Prim2SF 80 = S754_finite false 5629499534213120 (-46).
Proof. vm_compute. reflexivity. Qed.

Lemma Prim2SF_50 : Prim2SF 50 = S754_finite false 7036874417766400 (-47).
Proof. vm_compute. reflexivity. Qed.

Lemma compare_cont_Eq_antisym (p q : positive) :
  Pos.compare_cont Eq q p = CompOpp (Pos.compare_cont Eq p q).
Proof. rewrite Pos.compare_cont_antisym. reflexivity. Qed.

Ltac pick_case :=
  first [ left; repeat split; reflexivity
        | right; left; repeat split; reflexivity
        | right; right; repeat split; reflexivity ].

(** On the specification floats: a value that is not NaN lies in exactly
    one of the three ranges cut by 50 and 80. *)
Lemma SF_thresholds (x : spec_float) :
  x <> S754_nan ->
  let v80 := S754_finite false 5629499534213120 (-46) in
  let v50 := S754_finite false 7036874417766400 (-47) in
  (SFleb v80 x = true /\ SFleb v50 x = true /\ SFltb x v80 = false /\ SFltb x v50 = false)
  \/ (SFleb v80 x = false /\ SFleb v50 x = true /\ SFltb x v80 = true /\ SFltb x v50 = false)
  \/ (SFleb v80 x = false /\ SFleb v50 x = false /\ SFltb x v80 = true /\ SFltb x v50 = true).
Proof.
  intros Hx v80 v50. subst v80 v50.
  destruct x as [s | s | | s m e]; [ | | congruence | ].
  - destruct s; pick_case.
  - destruct s; pick_case.
  - destruct s; [pick_case | ].
    unfold SFleb, SFltb, SFcompare.
    rewrite (Z.compare_antisym e (-46)), (Z.compare_antisym e (-47)).
    rewrite (compare_cont_Eq_antisym m 5629499534213120).
    rewrite (compare_cont_Eq_antisym m 7036874417766400).
    destruct (Z.compare_spec e (-46)) as [E | L | G];
      destruct (Z.compare_spec e (-47)) as [E' | L' | G'];
      try (exfalso; lia); cbv [CompOpp].
    + destruct (Pos.compare_cont Eq m 5629499534213120); pick_case.
    + destruct (Pos.compare_cont Eq m 7036874417766400); pick_case.
    + pick_case.
    + pick_case.
Qed.

Lemma thresholds (c : number) : isNumber c -> Thresholds c.
Proof.
  intros Hc.
  pose proof (SF_thresholds (Prim2SF c) Hc) as H. cbv zeta in H.
  rewrite <- Prim2SF_80, <- Prim2SF_50 in H.
  rewrite <- !leb_spec, <- !ltb_spec in H.
  destruct H as [H | [H | H]]; destruct H as (H1 & H2 & H3 & H4);
    [apply AtLeast80 | apply From50To80 | apply Below50]; assumption.
Qed.

Lemma leb_isNumber (a c : number) : (a <=? c) = true -> isNumber c.
Proof.
  rewrite leb_spec. unfold isNumber. intros H E. rewrite E in H.
  destruct (Prim2SF a); discriminate.
Qed.

Lemma is_nan_isNumber (c : number) : is_nan c = false -> isNumber c.
Proof.
  unfold is_nan, isNumber. rewrite eqb_spec. intros H E.
  rewrite E in H. discriminate.
Qed.

(** NaN compares false with everything, itself included. *)
Lemma nan_compares_false (c x : number) :
  is_nan c = true -> (x <=? c) = false /\ (c <? x) = false.
Proof.
  unfold is_nan. rewrite eqb_spec, leb_spec, ltb_spec.
  destruct (Prim2SF c) as [s | s | | s m e]; intros H.
  - discriminate.
  - destruct s; discriminate.
  - split; [destruct (Prim2SF x) | ]; reflexivity.
  - exfalso. revert H. unfold SFeqb, SFcompare.
    rewrite Z.compare_refl, Pos.compare_cont_refl. destruct s; discriminate.
Qed.

(** * Bucketing *)

Lemma exactly_one_bucket (c : number) :
  isNumber c -> ExactlyOne (Bucket.High c) (Bucket.Medium c) (Bucket.Low c).
Proof.
  intros Hc. unfold ExactlyOne, Bucket.High, Bucket.Medium, Bucket.Low.
  destruct (thresholds c Hc) as [a b x y | a b x y | a b x y];
    rewrite a, b, x, y; [left | right; left | right; right];
    repeat split; try reflexivity; intuition discriminate.
Qed.

Ltac unfold_sites :=
  unfold TreatedAsHigh, TreatedAsMedium, TreatedAsLow,
    MapView.createMarkerIcon, LeafletMap.createMarkerIcon,
    HotspotList.getConfidenceColor, HotspotList.getConfidenceBg,
    HotspotList.HotspotCard, HotspotList.dot,
    HotspotList.highRisk, HotspotList.mediumRisk, HotspotList.lowRisk.

Lemma high_everywhere (h : Hotspot) :
  isNumber (confidence h) -> Bucket.High (confidence h) -> TreatedAsHigh h.
Proof.
  intros Hc Hh. unfold Bucket.High in Hh.
  destruct (thresholds _ Hc) as [a b x y | a b x y | a b x y]; [ | congruence | congruence ].
  unfold_sites. rewrite a, b, x, y. repeat split; reflexivity.
Qed.

Lemma medium_everywhere (h : Hotspot) :
  isNumber (confidence h) -> Bucket.Medium (confidence h) -> TreatedAsMedium h.
Proof.
  intros Hc [Hm1 Hm2].
  destruct (thresholds _ Hc) as [a b x y | a b x y | a b x y]; [ congruence | | congruence ].
  unfold_sites. rewrite a, b, x, y. repeat split; reflexivity.
Qed.

Lemma low_everywhere (h : Hotspot) :
  isNumber (confidence h) -> Bucket.Low (confidence h) -> TreatedAsLow h.
Proof.
  intros Hc Hl. unfold Bucket.Low in Hl.
  destruct (thresholds _ Hc) as [a b x y | a b x y | a b x y]; [ congruence | congruence | ].
  unfold_sites. rewrite a, b, x, y. repeat split; reflexivity.
Qed.

(** C5: every confidence from 0 to 100 falls in exactly one of High (80
    and above), Medium (50 up to 80) and Low (below 50); the marker
    colours of both maps, the badge and dot colours of the cards and the
    three risk filters all follow that bucket; 80 is High and 50 is
    Medium. *)
Theorem confidence_bucketing (h : Hotspot) :
  (0 <=? confidence h) = true ->
  (confidence h <=? 100) = true ->
  ExactlyOne (Bucket.High (confidence h)) (Bucket.Medium (confidence h))
             (Bucket.Low (confidence h))
  /\ (Bucket.High (confidence h) -> TreatedAsHigh h)
  /\ (Bucket.Medium (confidence h) -> TreatedAsMedium h)
  /\ (Bucket.Low (confidence h) -> TreatedAsLow h)
  /\ Bucket.High 80 /\ ~ Bucket.Medium 80
  /\ Bucket.Medium 50 /\ ~ Bucket.Low 50.
Proof.
  intros H0 _. pose proof (leb_isNumber _ _ H0) as Hc.
  split; [apply exactly_one_bucket; exact Hc | ].
  split; [apply high_everywhere; exact Hc | ].
  split; [apply medium_everywhere; exact Hc | ].
  split; [apply low_everywhere; exact Hc | ].
  unfold Bucket.High, Bucket.Medium, Bucket.Low.
  repeat split; try reflexivity; vm_compute; intuition discriminate.
Qed.

Lemma confidence_bucketing_at_80 :
  let h := sampleHotspot 1 80 in
  ExactlyOne (Bucket.High (confidence h)) (Bucket.Medium (confidence h))
             (Bucket.Low (confidence h))
  /\ (Bucket.High (confidence h) -> TreatedAsHigh h)
  /\ (Bucket.Medium (confidence h) -> TreatedAsMedium h)
  /\ (Bucket.Low (confidence h) -> TreatedAsLow h)
  /\ Bucket.High 80 /\ ~ Bucket.Medium 80
  /\ Bucket.Medium 50 /\ ~ Bucket.Low 50.
Proof.
  apply (confidence_bucketing (sampleHotspot 1 80)); reflexivity.
Defined.

(** * The stats bar *)

Lemma risk_filters_partition (h : Hotspot) :
  ((if HotspotList.highRisk h then 1 else 0)
   + (if HotspotList.mediumRisk h then 1 else 0)
   + (if HotspotList.lowRisk h then 1 else 0)
   + (if is_nan (confidence h) then 1 else 0) = 1)%nat.
Proof.
  unfold HotspotList.highRisk, HotspotList.mediumRisk, HotspotList.lowRisk.
  destruct (is_nan (confidence h)) eqn:E.
  - destruct (nan_compares_false (confidence h) 80 E) as [a x].
    destruct (nan_compares_false (confidence h) 50 E) as [b y].
    rewrite a, b, x, y. reflexivity.
  - destruct (thresholds _ (is_nan_isNumber _ E)) as [a b x y | a b x y | a b x y];
      rewrite a, b, x, y; reflexivity.
Qed.

Lemma length_filter_cons {A : Type} (f : A -> bool) (x : A) (l : list A) :
  List.length (filter f (x :: l)) = ((if f x then 1 else 0) + List.length (filter f l))%nat.
Proof. cbn [filter]. destruct (f x); reflexivity. Qed.

Lemma risk_counts_total (hs : list Hotspot) :
  (List.length (filter HotspotList.highRisk hs)
   + List.length (filter HotspotList.mediumRisk hs)
   + List.length (filter HotspotList.lowRisk hs)
   + List.length (filter (fun h => is_nan (confidence h)) hs)
   = List.length hs)%nat.
Proof.
  induction hs as [| h hs IH]; [reflexivity | ].
  rewrite !length_filter_cons. cbn [List.length].
  pose proof (risk_filters_partition h). lia.
Qed.

Lemma no_nan_filter (hs : list Hotspot) :
  Forall (fun h => is_nan (confidence h) = false) hs ->
  filter (fun h => is_nan (confidence h)) hs = [].
Proof.
  induction 1 as [| h hs Hh _ IH]; [reflexivity | ].
  cbn [filter]. rewrite Hh. exact IH.
Qed.

(** C4, as stated, fails: after a retrieval that returns six hotspots
    and a top-5, MapView holds six high-risk hotspots and the stats bar
    counts five. *)
Lemma risk_counts_not_over_controller_hotspots :
  ~ CountsOverControllerHotspots
      (LazyMapView.fetchHotspots appProps 34.0522 (-118.2437) sampleClock
         (Fulfilled (Some sixHotspots)) initialWorld)
  /\ ~ CountsOverControllerHotspots
      (MapView.fetchHotspots appProps initialState 34.0522 (-118.2437) sampleClock
         (Fulfilled (Some sixHotspots)) initialWorld).
Proof.
  split; intros [H _]; vm_compute in H; discriminate.
Qed.

(** C4, amended: the stats bar counts over the sequence the list view is
    given, which is the parent's [hotspots] state as last set through
    [onHotspotsUpdate], not over the hotspots MapView holds; each count is
    the number of elements of that sequence passing the High, Medium, Low
    filter, and when no confidence is NaN the three counts add up to the
    length of the sequence, which is the displayed total. *)
Theorem risk_counts_over_list_prop (w : World) :
  Forall (fun h => is_nan (confidence h) = false) (App.hotspots (app w)) ->
  let shown := App.render (app w) in
  HotspotList.high shown
    = List.length (filter HotspotList.highRisk (App.hotspots (app w)))
  /\ HotspotList.medium shown
    = List.length (filter HotspotList.mediumRisk (App.hotspots (app w)))
  /\ HotspotList.low shown
    = List.length (filter HotspotList.lowRisk (App.hotspots (app w)))
  /\ (HotspotList.high shown + HotspotList.medium shown + HotspotList.low shown
      = List.length (App.hotspots (app w)))%nat
  /\ HotspotList.totalHotspots shown = List.length (App.hotspots (app w)).
Proof.
  intros Hn shown. subst shown.
  unfold App.render, HotspotList.HotspotList. cbn.
  repeat split.
  pose proof (risk_counts_total (App.hotspots (app w))) as T.
  rewrite (no_nan_filter _ Hn) in T. cbn [List.length] in T. lia.
Qed.

Lemma risk_counts_over_list_prop_six :
  let w := LazyMapView.fetchHotspots appProps 34.0522 (-118.2437) sampleClock
             (Fulfilled (Some sixHotspots)) initialWorld in
  let shown := App.render (app w) in
  HotspotList.high shown
    = List.length (filter HotspotList.highRisk (App.hotspots (app w)))
  /\ HotspotList.medium shown
    = List.length (filter HotspotList.mediumRisk (App.hotspots (app w)))
  /\ HotspotList.low shown
    = List.length (filter HotspotList.lowRisk (App.hotspots (app w)))
  /\ (HotspotList.high shown + HotspotList.medium shown + HotspotList.low shown
      = List.length (App.hotspots (app w)))%nat
  /\ HotspotList.totalHotspots shown = List.length (App.hotspots (app w)).
Proof.
  apply (risk_counts_over_list_prop
           (LazyMapView.fetchHotspots appProps 34.0522 (-118.2437) sampleClock
              (Fulfilled (Some sixHotspots)) initialWorld)).
  vm_compute. repeat constructor.
Defined.

(** * Retrieval *)

Ltac by_cases_on_props props :=
  destruct props as [[onHotspots |] [onWeather |]].

(** C1: however the request of [fetchHotspots] settles (a body, a null
    body, a rejection), in either MapView, the call ends with [loading]
    false, whatever the state it resumes in. *)
Theorem fetchHotspots_restores_loading
    (props : MapViewProps) (render : MapViewState) (lat lng : number)
    (now : nat -> JSString) (response : Settled Response.data) (w : World) :
  loading (view (MapView.fetchHotspots_resume props render lat lng now response w)) = false
  /\ loading (view (LazyMapView.fetchHotspots_resume props lat lng now response w)) = false
  /\ loading (view (MapView.fetchHotspots props render lat lng now response w)) = false
  /\ loading (view (LazyMapView.fetchHotspots props lat lng now response w)) = false.
Proof.
  by_cases_on_props props; destruct response as [[data |] |];
    repeat split; reflexivity.
Qed.

(** The lazy MapView builds its mock hotspots around the queried
    coordinate, and hands the mock weather to its parent. *)
Lemma LazyMapView_mock_around_query
    (lat lng : number) (now : nat -> JSString) (w : World) :
  let w' := LazyMapView.fetchHotspots_resume appProps lat lng now Rejected w in
  MockAround (lat, lng) (hotspots (view w'))
  /\ App.hotspots (app w') = hotspots (view w')
  /\ App.weather (app w') = Some {| temp := 32; humidity := 15; windSpeed := 25 |}.
Proof. repeat split; reflexivity. Qed.

(** MapView.tsx builds them around the centre its render saw, wherever
    the query was. *)
Lemma MapView_mock_around_render_center
    (render : MapViewState) (lat lng : number) (now : nat -> JSString) (w : World) :
  let w' := MapView.fetchHotspots_resume appProps render lat lng now Rejected w in
  MockAround (mapCenter render) (hotspots (view w'))
  /\ App.hotspots (app w') = hotspots (view w')
  /\ App.weather (app w') = Some {| temp := 32; humidity := 15; windSpeed := 25 |}.
Proof. repeat split; reflexivity. Qed.

Lemma float_neq (a b : number) : (a =? b) = false -> (b =? b) = true -> a <> b.
Proof. intros H1 H2 E. rewrite E in H1. congruence. Qed.

(** C2 fails in MapView.tsx: a search from the initial page that resolves
    to (40.7128, -74.006) and whose retrieval is rejected leaves the five
    mock hotspots around the old centre (34.0522, -118.2437), not around
    the queried coordinate. *)
Theorem MapView_mock_ignores_queried_coordinate :
  let render := withQuery (js "New York") in
  let searched :=
    MapView.handleSearch sampleParseFloat render (Fulfilled (Some [newYork]))
      {| view := render; app := App.initialState; sent := [] |} in
  let w := MapView.fetchHotspots_resume appProps render 40.7128 (-74.006)
             sampleClock Rejected searched in
  sent searched = [NominatimSearch (js "New York"); NearbyHotspots 40.7128 (-74.006)]
  /\ mapCenter (view w) = (40.7128, -74.006)
  /\ positions (hotspots (view w)) = mockPositions (34.0522, -118.2437)
  /\ positions (hotspots (view w)) <> mockPositions (40.7128, -74.006).
Proof.
  repeat split; try (vm_compute; reflexivity).
  intros E. apply (f_equal (fun l => fst (hd (0, 0) l))) in E.
  revert E. apply float_neq; vm_compute; reflexivity.
Qed.

(** The lazy MapView hands its parent the server's [top5] when there is
    one, else the returned hotspots, else nothing. *)
Lemma LazyMapView_hands_ranked_or_returned
    (lat lng : number) (now : nat -> JSString) (data : Response.data) (w : World) :
  let w' := LazyMapView.fetchHotspots_resume appProps lat lng now (Fulfilled (Some data)) w in
  App.hotspots (app w')
  = match Response.top5 data, Response.hotspots data with
    | Some ranked, _ => ranked
    | None, Some returned => returned
    | None, None => []
    end.
Proof.
  destruct data as [wt [hs |] [t5 |]]; reflexivity.
Qed.

(** MapView.tsx hands over the server's [top5] when there is one, and
    nothing otherwise. *)
Lemma MapView_hands_ranked_or_nothing
    (render : MapViewState) (lat lng : number) (now : nat -> JSString)
    (data : Response.data) (w : World) :
  let w' := MapView.fetchHotspots_resume appProps render lat lng now (Fulfilled (Some data)) w in
  App.hotspots (app w')
  = match Response.top5 data with
    | Some ranked => ranked
    | None => []
    end.
Proof.
  destruct data as [wt [hs |] [t5 |]]; reflexivity.
Qed.

(** C3 fails in MapView.tsx: when the response carries one hotspot and no
    [top5], MapView keeps the hotspot and hands the list view an empty
    sequence. *)
Theorem MapView_drops_unranked_hotspots :
  let w := MapView.fetchHotspots appProps initialState 34.0522 (-118.2437)
             sampleClock (Fulfilled (Some unrankedHotspot)) initialWorld in
  hotspots (view w) = [sampleHotspot 1 90]
  /\ App.hotspots (app w) = []
  /\ HotspotList.grid (App.render (app w)) = HotspotList.NoHotspotsDetected.
Proof. repeat split; reflexivity. Qed.

(** C9, as stated, fails: a body with an empty [hotspots] array and a
    [top5] of one hotspot leaves MapView with no hotspot, yet the list
    view is handed that hotspot and shows a card, in both files. *)
Lemma empty_hotspots_with_ranked_shows_card :
  ~ ShowsNoHotspots
      (MapView.fetchHotspots appProps initialState 34.0522 (-118.2437) sampleClock
         (Fulfilled (Some rankedOnly)) initialWorld)
  /\ ~ ShowsNoHotspots
      (LazyMapView.fetchHotspots appProps 34.0522 (-118.2437) sampleClock
         (Fulfilled (Some rankedOnly)) initialWorld).
Proof.
  split; intros [_ H]; vm_compute in H; discriminate.
Qed.

(** C9, amended: a successful retrieval whose body carries an empty
    [hotspots] array leaves MapView with no hotspot and no error (the
    continuation does not touch the error, so no mock fallback), whatever
    else the body carries; the list view is handed the body's [top5], or
    nothing when it is absent, and shows its no-hotspots state exactly
    when that is empty. *)
Theorem empty_result_is_not_a_failure
    (render : MapViewState) (lat lng : number) (now : nat -> JSString)
    (weather : option Weather) (ranked : option (list Hotspot)) (w : World) :
  let ok := Fulfilled (Some {| Response.weather := weather;
                               Response.hotspots := Some [];
                               Response.top5 := ranked |}) in
  let Empty (resumed whole : World) :=
    hotspots (view whole) = []
    /\ error (view whole) = None
    /\ hotspots (view resumed) = []
    /\ error (view resumed) = error (view w)
    /\ App.hotspots (app whole) = or_else ranked []
    /\ (HotspotList.grid (App.render (app whole)) = HotspotList.NoHotspotsDetected
        <-> or_else ranked [] = []) in
  Empty (MapView.fetchHotspots_resume appProps render lat lng now ok w)
        (MapView.fetchHotspots appProps render lat lng now ok w)
  /\ Empty (LazyMapView.fetchHotspots_resume appProps lat lng now ok w)
           (LazyMapView.fetchHotspots appProps lat lng now ok w).
Proof.
  destruct ranked as [[| h l] |]; cbn;
    repeat split; try reflexivity; intros; discriminate.
Qed.

(** * Geolocation *)

(** C7: when geolocation fails, and when the browser has none, either
    MapView sends one retrieval for (34.0522, -118.2437), leaves the centre
    as it is, which on the initial page is that default, and clears the
    error rather than setting one. *)
Theorem geolocation_failure_falls_back_to_default (w : World) :
  FellBackToDefault w (LazyMapView.geolocation_error w)
  /\ FellBackToDefault w (LazyMapView.useEffect_geolocation false w)
  /\ FellBackToDefault w (MapView.geolocation_error initialState w)
  /\ FellBackToDefault w (MapView.useEffect_geolocation initialState false w)
  /\ mapCenter (view initialWorld) = (34.0522, -118.2437).
Proof. unfold FellBackToDefault. repeat split; reflexivity. Qed.

(** * Search *)

(** C8: when geocoding returns at least one candidate, either MapView
    makes the first candidate's parsed [lat]/[lon] the centre, sends one
    retrieval for exactly that coordinate, and leaves [userLocation]
    alone. *)
Theorem search_adopts_first_candidate
    (parseFloat : JSString -> number) (render : MapViewState)
    (place : Nominatim.place) (others : list Nominatim.place) (w : World) :
  let target := (parseFloat (Nominatim.lat place), parseFloat (Nominatim.lon place)) in
  let found := Fulfilled (Some (place :: others)) in
  Adopted target w (MapView.handleSearch_resume parseFloat render found w)
  /\ Adopted target w (LazyMapView.handleSearch_resume parseFloat found w).
Proof. unfold Adopted. repeat split; reflexivity. Qed.

Lemma filter_app_one {A : Type} (f : A -> bool) (l : list A) (x : A) :
  f x = false -> filter f (l ++ [x]) = filter f l.
Proof.
  intros H. rewrite filter_app. cbn [filter]. rewrite H. apply app_nil_r.
Qed.

(** C6: when geocoding returns no candidate, either MapView sets the
    error to 'Location not found', ends with loading false, sends
    nothing, and keeps hotspots and centre; the whole submission sends no
    retrieval. *)
Theorem search_without_candidates
    (parseFloat : JSString -> number) (render : MapViewState) (w : World) :
  let none := Fulfilled (Some []) in
  NotFound w (MapView.handleSearch_resume parseFloat render none w)
  /\ NotFound w (LazyMapView.handleSearch_resume parseFloat none w)
  /\ retrievals (MapView.handleSearch parseFloat render none w) = retrievals w
  /\ retrievals (LazyMapView.handleSearch parseFloat render none w) = retrievals w.
Proof.
  unfold NotFound. repeat split; try reflexivity.
  - unfold MapView.handleSearch, MapView.handleSearch_begin,
      MapView.handleSearch_awaits, retrievals, andThen.
    destruct (truthy (trim (searchQuery render)));
      destruct (isWellFormed (searchQuery render)); cbn; try reflexivity.
    apply filter_app_one. reflexivity.
  - unfold LazyMapView.handleSearch, LazyMapView.handleSearch_begin,
      LazyMapView.handleSearch_awaits, retrievals, andThen.
    destruct (truthy (trim (searchQuery render)));
      destruct (isWellFormed (searchQuery render)); cbn; try reflexivity.
    apply filter_app_one. reflexivity.
Qed.

Lemma trimStart_blank (s : JSString) :
  forallb isWhiteSpace s = true -> trimStart s = [].
Proof.
  induction s as [| c s IH]; [reflexivity | ].
  cbn [forallb trimStart]. intros H. apply andb_prop in H as [Hc Hs].
  rewrite Hc. exact (IH Hs).
Qed.

Lemma trim_blank (s : JSString) :
  forallb isWhiteSpace s = true -> trim s = [].
Proof.
  intros H. unfold trim. rewrite (trimStart_blank s H). reflexivity.
Qed.

(** C10: when the query is empty or all whitespace, [handleSearch]
    returns at once in either MapView: the page is exactly as before, so
    no state cell changes and no request of any kind is sent. *)
Theorem blank_search_does_nothing
    (parseFloat : JSString -> number) (render : MapViewState)
    (response : Settled (list Nominatim.place)) (w : World) :
  forallb isWhiteSpace (searchQuery render) = true ->
  MapView.handleSearch_begin render w = w
  /\ LazyMapView.handleSearch_begin render w = w
  /\ MapView.handleSearch parseFloat render response w = w
  /\ LazyMapView.handleSearch parseFloat render response w = w.
Proof.
  intros H. apply trim_blank in H.
  unfold MapView.handleSearch, LazyMapView.handleSearch,
    MapView.handleSearch_awaits, LazyMapView.handleSearch_awaits,
    MapView.handleSearch_begin, LazyMapView.handleSearch_begin, andThen.
  rewrite H. repeat split; reflexivity.
Qed.

Lemma blank_search_does_nothing_example :
  let render := withQuery [32; 9; 12288]%N in
  let w := LazyMapView.fetchHotspots appProps 34.0522 (-118.2437) sampleClock
             (Fulfilled (Some sixHotspots)) initialWorld in
  MapView.handleSearch_begin render w = w
  /\ LazyMapView.handleSearch_begin render w = w
  /\ MapView.handleSearch sampleParseFloat render (Fulfilled (Some [newYork])) w = w
  /\ LazyMapView.handleSearch sampleParseFloat render (Fulfilled (Some [newYork])) w = w.
Proof.
  apply (blank_search_does_nothing sampleParseFloat (withQuery [32; 9; 12288]%N)).
  reflexivity.
Defined.

(** * Further properties of the handlers *)

(** A position fix becomes both the user's location and the centre, and
    one retrieval is sent for it with loading on and the error cleared;
    the two MapView files do the same. *)
Theorem geolocation_success_adopts_position (latitude longitude : number) (w : World) :
  let w' := MapView.geolocation_success latitude longitude w in
  userLocation (view w') = Some (latitude, longitude)
  /\ mapCenter (view w') = (latitude, longitude)
  /\ sent w' = sent w ++ [NearbyHotspots latitude longitude]
  /\ loading (view w') = true
  /\ error (view w') = None
  /\ hotspots (view w') = hotspots (view w)
  /\ app w' = app w
  /\ LazyMapView.geolocation_success latitude longitude w = w'.
Proof. repeat split; reflexivity. Qed.

(** When the browser has geolocation, mounting only asks for the
    position: no retrieval yet, and no state cell changes. *)
Theorem mount_with_geolocation_only_asks (w : World) :
  let w' := MapView.useEffect_geolocation initialState true w in
  sent w' = sent w ++ [GetCurrentPosition]
  /\ view w' = view w
  /\ app w' = app w
  /\ retrievals w' = retrievals w
  /\ LazyMapView.useEffect_geolocation true w = w'.
Proof.
  repeat split; try reflexivity.
  unfold retrievals. cbn. apply filter_app_one. reflexivity.
Qed.

(** A geocoding call that is rejected ends the search with 'Failed to
    search location', one that answers with a null body ends it with
    'Location not found'; either way loading is off, nothing is sent, and
    the rest of the page is as it was. *)
Theorem search_failure_leaves_page
    (parseFloat : JSString -> number) (render : MapViewState) (w : World) :
  let Ended (message : JSString) (w' : World) :=
    error (view w') = Some message
    /\ loading (view w') = false
    /\ sent w' = sent w
    /\ app w' = app w
    /\ hotspots (view w') = hotspots (view w)
    /\ mapCenter (view w') = mapCenter (view w)
    /\ userLocation (view w') = userLocation (view w)
    /\ searchQuery (view w') = searchQuery (view w) in
  Ended (js "Failed to search location") (MapView.handleSearch_resume parseFloat render Rejected w)
  /\ Ended (js "Failed to search location") (LazyMapView.handleSearch_resume parseFloat Rejected w)
  /\ Ended (js "Location not found") (MapView.handleSearch_resume parseFloat render (Fulfilled None) w)
  /\ Ended (js "Location not found") (LazyMapView.handleSearch_resume parseFloat (Fulfilled None) w).
Proof. repeat split; reflexivity. Qed.

(** ** When a search reaches the geocoder *)

Lemma truthy_trimStart (s : JSString) : truthy (trimStart s) = hasInk s.
Proof.
  induction s as [| c s IH]; [reflexivity | ].
  cbn [trimStart hasInk existsb]. destruct (isWhiteSpace c); [exact IH | reflexivity].
Qed.

Lemma hasInk_trimStart (s : JSString) : hasInk (trimStart s) = hasInk s.
Proof.
  induction s as [| c s IH]; [reflexivity | ].
  cbn [trimStart]. destruct (isWhiteSpace c) eqn:E; [ | reflexivity].
  rewrite IH. cbn [hasInk existsb]. rewrite E. reflexivity.
Qed.

Lemma hasInk_app (s t : JSString) : hasInk (s ++ t) = hasInk s || hasInk t.
Proof. apply existsb_app. Qed.

Lemma hasInk_rev (s : JSString) : hasInk (rev s) = hasInk s.
Proof.
  induction s as [| c s IH]; [reflexivity | ].
  cbn [rev]. rewrite hasInk_app, IH. cbn [hasInk existsb].
  rewrite orb_false_r. apply orb_comm.
Qed.

Lemma truthy_rev (s : JSString) : truthy (rev s) = truthy s.
Proof.
  destruct s as [| c s]; [reflexivity | ].
  cbn [rev]. destruct (rev s); reflexivity.
Qed.

Lemma truthy_trim (s : JSString) : truthy (trim s) = hasInk s.
Proof.
  unfold trim, trimEnd.
  rewrite truthy_rev, truthy_trimStart, hasInk_rev. apply hasInk_trimStart.
Qed.



(** A query with ink and an unpaired surrogate never reaches the
    geocoder: [encodeURIComponent] throws, so nothing is sent, the error
    is 'Failed to search location', and loading ends off. *)
Theorem malformed_query_fails_before_request
    (parseFloat : JSString -> number) (render : MapViewState)
    (response : Settled (list Nominatim.place)) (w : World) :
  hasInk (searchQuery render) = true ->
  isWellFormed (searchQuery render) = false ->
  let w' := MapView.handleSearch parseFloat render response w in
  sent w' = sent w
  /\ error (view w') = Some (js "Failed to search location")
  /\ loading (view w') = false
  /\ mapCenter (view w') = mapCenter (view w)
  /\ hotspots (view w') = hotspots (view w)
  /\ app w' = app w
  /\ LazyMapView.handleSearch parseFloat render response w = w'.
Proof.
  intros Hink Hwf w'. subst w'.
  unfold MapView.handleSearch, LazyMapView.handleSearch,
    MapView.handleSearch_awaits, LazyMapView.handleSearch_awaits,
    MapView.handleSearch_begin, LazyMapView.handleSearch_begin, andThen.
  rewrite truthy_trim, Hink, Hwf. repeat split; reflexivity.
Qed.

Lemma malformed_query_fails_before_request_example :
  let render := withQuery [80; 55357]%N in
  let w := initialWorld in
  let w' := MapView.handleSearch sampleParseFloat render (Fulfilled (Some [newYork])) w in
  sent w' = sent w
  /\ error (view w') = Some (js "Failed to search location")
  /\ loading (view w') = false
  /\ mapCenter (view w') = mapCenter (view w)
  /\ hotspots (view w') = hotspots (view w)
  /\ app w' = app w
  /\ LazyMapView.handleSearch sampleParseFloat render (Fulfilled (Some [newYork])) w = w'.
Proof.
  apply (malformed_query_fails_before_request sampleParseFloat
           (withQuery [80; 55357]%N) (Fulfilled (Some [newYork])) initialWorld);
    reflexivity.
Defined.

(** After a search that found a place, MapView.tsx has already turned
    loading off while the retrieval it just sent is still pending (its
    [finally] runs right after the un-awaited call); the lazy MapView
    keeps loading on until the retrieval settles. *)
Theorem loading_while_retrieval_pending
    (parseFloat : JSString -> number) (render : MapViewState)
    (place : Nominatim.place) (others : list Nominatim.place) (w : World) :
  let found := Fulfilled (Some (place :: others)) in
  let target := NearbyHotspots (parseFloat (Nominatim.lat place))
                               (parseFloat (Nominatim.lon place)) in
  let eager := MapView.handleSearch_resume parseFloat render found w in
  let lazy := LazyMapView.handleSearch_resume parseFloat found w in
  last (sent eager) GetCurrentPosition = target
  /\ last (sent lazy) GetCurrentPosition = target
  /\ loading (view eager) = false
  /\ loading (view lazy) = true
  /\ error (view eager) = None
  /\ error (view lazy) = None.
Proof.
  cbn. rewrite !last_last. repeat split; reflexivity.
Qed.

(** ** What a settled retrieval does and does not do *)

(** However it settles, a retrieval sends nothing further (there is no
    retry) and leaves centre, user location and query untouched. *)
Theorem settled_retrieval_frame
    (props : MapViewProps) (render : MapViewState) (lat lng : number)
    (now : nat -> JSString) (response : Settled Response.data) (w : World) :
  let Untouched (w' : World) :=
    sent w' = sent w
    /\ mapCenter (view w') = mapCenter (view w)
    /\ userLocation (view w') = userLocation (view w)
    /\ searchQuery (view w') = searchQuery (view w) in
  Untouched (MapView.fetchHotspots_resume props render lat lng now response w)
  /\ Untouched (LazyMapView.fetchHotspots_resume props lat lng now response w).
Proof.
  by_cases_on_props props; destruct response as [[data |] |];
    repeat split; reflexivity.
Qed.

(** A settled retrieval replaces: the hotspots MapView holds, and under
    App the whole of the parent's state, depend on the response alone,
    never on what was there before; so of two retrievals the one that
    settles last decides. *)
Theorem settled_retrieval_replaces
    (render : MapViewState) (lat lng : number)
    (now : nat -> JSString) (response : Settled Response.data) (w1 w2 : World) :
  hotspots (view (MapView.fetchHotspots_resume appProps render lat lng now response w1))
  = hotspots (view (MapView.fetchHotspots_resume appProps render lat lng now response w2))
  /\ app (MapView.fetchHotspots_resume appProps render lat lng now response w1)
     = app (MapView.fetchHotspots_resume appProps render lat lng now response w2)
  /\ hotspots (view (LazyMapView.fetchHotspots_resume appProps lat lng now response w1))
     = hotspots (view (LazyMapView.fetchHotspots_resume appProps lat lng now response w2))
  /\ app (LazyMapView.fetchHotspots_resume appProps lat lng now response w1)
     = app (LazyMapView.fetchHotspots_resume appProps lat lng now response w2).
Proof.
  destruct response as [[data |] |]; repeat split; reflexivity.
Qed.

(** The two MapView files agree on every response that carries a
    [top5]; on a failed retrieval for the very centre the render saw they
    agree on everything but the wording of the error. *)
Theorem MapView_files_agree
    (props : MapViewProps) (render : MapViewState) (lat lng : number)
    (now : nat -> JSString) (weather : option Weather)
    (returned : option (list Hotspot)) (ranked : list Hotspot) (w : World) :
  let data := {| Response.weather := weather;
                 Response.hotspots := returned;
                 Response.top5 := Some ranked |} in
  MapView.fetchHotspots_resume props render lat lng now (Fulfilled (Some data)) w
  = LazyMapView.fetchHotspots_resume props lat lng now (Fulfilled (Some data)) w
  /\ sameButError
       (MapView.fetchHotspots_resume props render
          (fst (mapCenter render)) (snd (mapCenter render)) now Rejected w)
       (LazyMapView.fetchHotspots_resume props
          (fst (mapCenter render)) (snd (mapCenter render)) now Rejected w).
Proof.
  unfold sameButError. by_cases_on_props props; repeat split; reflexivity.
Qed.

(** ** What the list view makes of it *)

Lemma mapi_hotspot (l : list Hotspot) (i : nat) :
  List.map HotspotList.hotspot (HotspotList.mapi HotspotList.HotspotCard i l) = l.
Proof.
  revert i. induction l as [| h l IH]; intros i; [reflexivity | ].
  cbn. rewrite IH. reflexivity.
Qed.

Lemma mapi_index (l : list Hotspot) (i : nat) :
  List.map HotspotList.index (HotspotList.mapi HotspotList.HotspotCard i l)
  = seq i (List.length l).
Proof.
  revert i. induction l as [| h l IH]; intros i; [reflexivity | ].
  cbn. rewrite IH. reflexivity.
Qed.

(** The grid shows the first five hotspots it is given, in the order
    received, numbered from 0, and never more than five; it shows the
    empty state exactly when it is given none. *)
Theorem grid_shows_first_five (hs : list Hotspot) (weather : option Weather) :
  let g := HotspotList.grid (HotspotList.HotspotList hs weather) in
  List.map HotspotList.hotspot (cardsOf g) = firstn 5 hs
  /\ List.map HotspotList.index (cardsOf g) = seq 0 (Nat.min 5 (List.length hs))
  /\ (List.length (cardsOf g) <= 5)%nat
  /\ (g = HotspotList.NoHotspotsDetected <-> hs = []).
Proof.
  intros g. subst g. unfold HotspotList.HotspotList. cbn [HotspotList.grid].
  destruct hs as [| h hs].
  - cbn. repeat split; try reflexivity. lia.
  - change (0 <? List.length (h :: hs))%nat with true. cbv iota. cbn [cardsOf].
    rewrite mapi_hotspot, mapi_index, length_firstn.
    repeat split; try discriminate.
    rewrite <- (length_map HotspotList.hotspot), mapi_hotspot, length_firstn. lia.
Qed.

(** The stats bar always satisfies: High + Medium + Low + the hotspots
    whose confidence is NaN = total.  A NaN confidence is counted in no
    bucket, though every colour site paints it as low. *)
Theorem stats_bar_accounts_for_all (hs : list Hotspot) (weather : option Weather) :
  let shown := HotspotList.HotspotList hs weather in
  (HotspotList.high shown + HotspotList.medium shown + HotspotList.low shown
   + List.length (filter (fun h => is_nan (confidence h)) hs)
   = HotspotList.totalHotspots shown)%nat
  /\ (forall h, is_nan (confidence h) = true ->
        HotspotList.highRisk h = false
        /\ HotspotList.mediumRisk h = false
        /\ HotspotList.lowRisk h = false
        /\ HotspotList.getConfidenceColor (confidence h) = js "text-caution"
        /\ MapView.createMarkerIcon (confidence h) = js "#eab308"
        /\ LeafletMap.createMarkerIcon (confidence h) = js "#eab308").
Proof.
  split; [cbn; apply risk_counts_total | ].
  intros h E.
  destruct (nan_compares_false (confidence h) 80 E) as [a x].
  destruct (nan_compares_false (confidence h) 50 E) as [b y].
  unfold_sites. rewrite a, b, y. repeat split; reflexivity.
Qed.



(** * Invariants of the running page *)

Lemma run_invariant (step : Event -> World -> World) (P : World -> Prop) :
  (forall e w, P w -> P (step e w)) ->
  forall events w, P w -> P (run step events w).
Proof.
  intros Hstep events. unfold run.
  induction events as [| e events IH]; intros w Hw; [exact Hw | ].
  cbn [fold_left]. apply IH, Hstep, Hw.
Qed.

Ltac known_message :=
  split; [ cbn; repeat (first [left; reflexivity | right]) | reflexivity ].

Ltac error_cases :=
  unfold ErrorIsKnown in *; cbn in *;
  first [ assumption | exact I | known_message ].

Lemma MapView_step_error (parseFloat : JSString -> number) (props : MapViewProps)
    (e : Event) (w : World) :
  ErrorIsKnown w -> ErrorIsKnown (MapView_step parseFloat props e w).
Proof.
  intros H. destruct e as [g | la lo | | text | render | render response
                           | render la lo now response]; cbn [MapView_step].
  - destruct g; error_cases.
  - error_cases.
  - error_cases.
  - error_cases.
  - unfold MapView.handleSearch_begin.
    destruct (truthy (trim (searchQuery render)));
      destruct (isWellFormed (searchQuery render)); error_cases.
  - destruct response as [[[| place others] |] |]; error_cases.
  - by_cases_on_props props; destruct response as [[data |] |]; error_cases.
Qed.

Lemma LazyMapView_step_error (parseFloat : JSString -> number) (props : MapViewProps)
    (e : Event) (w : World) :
  ErrorIsKnown w -> ErrorIsKnown (LazyMapView_step parseFloat props e w).
Proof.
  intros H. destruct e as [g | la lo | | text | render | render response
                           | render la lo now response]; cbn [LazyMapView_step].
  - destruct g; error_cases.
  - error_cases.
  - error_cases.
  - error_cases.
  - unfold LazyMapView.handleSearch_begin.
    destruct (truthy (trim (searchQuery render)));
      destruct (isWellFormed (searchQuery render)); error_cases.
  - destruct response as [[[| place others] |] |]; error_cases.
  - by_cases_on_props props; destruct response as [[data |] |]; error_cases.
Qed.

(** Whatever happens to the page, in whatever order, [error] is either
    absent or one of the four messages of the handlers, none of them
    empty: a set error is always one the banner displays. *)
Theorem error_is_always_known
    (parseFloat : JSString -> number) (props : MapViewProps) (events : list Event) :
  ErrorIsKnown (run (MapView_step parseFloat props) events initialWorld)
  /\ ErrorIsKnown (run (LazyMapView_step parseFloat props) events initialWorld).
Proof.
  split; apply run_invariant; try exact I; intros e w.
  - apply MapView_step_error.
  - apply LazyMapView_step_error.
Qed.

(** What one event adds to the requests: nothing or a single request. *)
Lemma MapView_step_sends (parseFloat : JSString -> number) (props : MapViewProps)
    (e : Event) (w : World) :
  exists more, sent (MapView_step parseFloat props e w) = sent w ++ more
               /\ (List.length more <= 1)%nat.
Proof.
  assert (Z : exists more, sent w = sent w ++ more /\ (List.length more <= 1)%nat)
    by (exists []; rewrite app_nil_r; split; [reflexivity | cbn; lia]).
  assert (S1 : forall r, exists more, sent w ++ [r] = sent w ++ more
                                      /\ (List.length more <= 1)%nat)
    by (intros r; exists [r]; split; [reflexivity | cbn; lia]).
  destruct e as [g | la lo | | text | render | render response
                 | render la lo now response]; cbn [MapView_step].
  - destruct g; apply S1.
  - apply S1.
  - apply S1.
  - exact Z.
  - unfold MapView.handleSearch_begin.
    destruct (truthy (trim (searchQuery render)));
      destruct (isWellFormed (searchQuery render)); cbn; first [exact Z | apply S1].
  - destruct response as [[[| place others] |] |]; cbn; first [exact Z | apply S1].
  - by_cases_on_props props; destruct response as [[data |] |]; exact Z.
Qed.

Lemma LazyMapView_step_sends (parseFloat : JSString -> number) (props : MapViewProps)
    (e : Event) (w : World) :
  exists more, sent (LazyMapView_step parseFloat props e w) = sent w ++ more
               /\ (List.length more <= 1)%nat.
Proof.
  assert (Z : exists more, sent w = sent w ++ more /\ (List.length more <= 1)%nat)
    by (exists []; rewrite app_nil_r; split; [reflexivity | cbn; lia]).
  assert (S1 : forall r, exists more, sent w ++ [r] = sent w ++ more
                                      /\ (List.length more <= 1)%nat)
    by (intros r; exists [r]; split; [reflexivity | cbn; lia]).
  destruct e as [g | la lo | | text | render | render response
                 | render la lo now response]; cbn [LazyMapView_step].
  - destruct g; apply S1.
  - apply S1.
  - apply S1.
  - exact Z.
  - unfold LazyMapView.handleSearch_begin.
    destruct (truthy (trim (searchQuery render)));
      destruct (isWellFormed (searchQuery render)); cbn; first [exact Z | apply S1].
  - destruct response as [[[| place others] |] |]; cbn; first [exact Z | apply S1].
  - by_cases_on_props props; destruct response as [[data |] |]; exact Z.
Qed.

Lemma run_sends (step : Event -> World -> World) :
  (forall e w, exists more, sent (step e w) = sent w ++ more
                            /\ (List.length more <= 1)%nat) ->
  forall events w, exists more, sent (run step events w) = sent w ++ more
                                /\ (List.length more <= List.length events)%nat.
Proof.
  intros Hstep events. unfold run.
  induction events as [| e events IH]; intros w.
  - exists []. rewrite app_nil_r. split; [reflexivity | cbn; lia].
  - cbn [fold_left]. destruct (IH (step e w)) as (m2 & E2 & L2).
    destruct (Hstep e w) as (m1 & E1 & L1).
    exists (m1 ++ m2). rewrite E2, E1, app_assoc.
    split; [reflexivity | ]. rewrite length_app. cbn [List.length]. lia.
Qed.

(** No handler sends more than one request per event, and none is sent
    without an event: after any events the page has sent at most as many
    requests as there were events, so at most that many retrievals. *)
Theorem at_most_one_request_per_event
    (parseFloat : JSString -> number) (props : MapViewProps)
    (events : list Event) (w : World) :
  let Bounded (w' : World) :=
    (List.length (sent w') <= List.length (sent w) + List.length events)%nat
    /\ (List.length (retrievals w') <= List.length (retrievals w) + List.length events)%nat in
  Bounded (run (MapView_step parseFloat props) events w)
  /\ Bounded (run (LazyMapView_step parseFloat props) events w).
Proof.
  assert (G : forall step,
    (forall e w, exists more, sent (step e w) = sent w ++ more
                              /\ (List.length more <= 1)%nat) ->
    (List.length (sent (run step events w)) <= List.length (sent w) + List.length events)%nat
    /\ (List.length (retrievals (run step events w))
        <= List.length (retrievals w) + List.length events)%nat).
  { intros step Hstep. destruct (run_sends step Hstep events w) as (more & E & L).
    unfold retrievals. rewrite E, filter_app, !length_app.
    pose proof (filter_length_le isRetrieval more). split; lia. }
  split; apply G; intros e w0.
  - apply MapView_step_sends.
  - apply LazyMapView_step_sends.
Qed.

Lemma MapView_step_noProps (parseFloat : JSString -> number) (e : Event) (w : World) :
  app (MapView_step parseFloat noProps e w) = app w.
Proof.
  destruct e as [g | la lo | | text | render | render response
                 | render la lo now response]; cbn [MapView_step].
  - destruct g; reflexivity.
  - reflexivity.
  - reflexivity.
  - reflexivity.
  - unfold MapView.handleSearch_begin.
    destruct (truthy (trim (searchQuery render)));
      destruct (isWellFormed (searchQuery render)); reflexivity.
  - destruct response as [[[| place others] |] |]; reflexivity.
  - destruct response as [[data |] |]; reflexivity.
Qed.

Lemma LazyMapView_step_noProps (parseFloat : JSString -> number) (e : Event) (w : World) :
  app (LazyMapView_step parseFloat noProps e w) = app w.
Proof.
  destruct e as [g | la lo | | text | render | render response
                 | render la lo now response]; cbn [LazyMapView_step].
  - destruct g; reflexivity.
  - reflexivity.
  - reflexivity.
  - reflexivity.
  - unfold LazyMapView.handleSearch_begin.
    destruct (truthy (trim (searchQuery render)));
      destruct (isWellFormed (searchQuery render)); reflexivity.
  - destruct response as [[[| place others] |] |]; reflexivity.
  - destruct response as [[data |] |]; reflexivity.
Qed.

(** A MapView mounted without the two optional callbacks never touches
    its parent, whatever happens to it; the retrieval still fills its own
    hotspots. *)
Theorem without_callbacks_parent_untouched
    (parseFloat : JSString -> number) (events : list Event) (w : World) :
  app (run (MapView_step parseFloat noProps) events w) = app w
  /\ app (run (LazyMapView_step parseFloat noProps) events w) = app w.
Proof.
  split.
  - apply (run_invariant _ (fun w' => app w' = app w)); [ | reflexivity].
    intros e w0 H. rewrite MapView_step_noProps. exact H.
  - apply (run_invariant _ (fun w' => app w' = app w)); [ | reflexivity].
    intros e w0 H. rewrite LazyMapView_step_noProps. exact H.
Qed.

(** * A search from submission to result *)

(** A search whose query reaches the geocoder, finds a place and whose
    retrieval succeeds ends, in both files, with the place as centre, the
    returned hotspots on the map, loading off and any earlier error
    cleared, having sent exactly the geocoding request and one retrieval
    for the place. *)
Theorem successful_search_end_to_end
    (parseFloat : JSString -> number) (render : MapViewState)
    (place : Nominatim.place) (others : list Nominatim.place)
    (now : nat -> JSString) (data : Response.data) (w : World) :
  hasInk (searchQuery render) = true ->
  isWellFormed (searchQuery render) = true ->
  let la := parseFloat (Nominatim.lat place) in
  let lo := parseFloat (Nominatim.lon place) in
  let found := Fulfilled (Some (place :: others)) in
  let Done (w' : World) :=
    mapCenter (view w') = (la, lo)
    /\ hotspots (view w') = or_else (Response.hotspots data) []
    /\ loading (view w') = false
    /\ error (view w') = None
    /\ userLocation (view w') = userLocation (view w)
    /\ sent w' = sent w ++ [NominatimSearch (searchQuery render); NearbyHotspots la lo]
    /\ App.weather (app w') = Response.weather data in
  Done (MapView.fetchHotspots_resume appProps render la lo now (Fulfilled (Some data))
          (MapView.handleSearch parseFloat render found w))
  /\ Done (LazyMapView.fetchHotspots_resume appProps la lo now (Fulfilled (Some data))
             (LazyMapView.handleSearch parseFloat render found w)).
Proof.
  intros Hink Hwf la lo found Done. subst la lo found Done.
  unfold MapView.handleSearch, LazyMapView.handleSearch,
    MapView.handleSearch_awaits, LazyMapView.handleSearch_awaits,
    MapView.handleSearch_begin, LazyMapView.handleSearch_begin, andThen.
  rewrite truthy_trim, Hink, Hwf. cbn.
  rewrite <- !app_assoc. repeat split; reflexivity.
Qed.

Lemma successful_search_end_to_end_example :
  let render := withQuery (js "New York") in
  let w := MapView.handleSearch_resume sampleParseFloat render (Fulfilled (Some [])) initialWorld in
  let la := sampleParseFloat (Nominatim.lat newYork) in
  let lo := sampleParseFloat (Nominatim.lon newYork) in
  let found := Fulfilled (Some [newYork]) in
  let Done (w' : World) :=
    mapCenter (view w') = (la, lo)
    /\ hotspots (view w') = or_else (Response.hotspots sixHotspots) []
    /\ loading (view w') = false
    /\ error (view w') = None
    /\ userLocation (view w') = userLocation (view w)
    /\ sent w' = sent w ++ [NominatimSearch (searchQuery render); NearbyHotspots la lo]
    /\ App.weather (app w') = Response.weather sixHotspots in
  Done (MapView.fetchHotspots_resume appProps render la lo sampleClock (Fulfilled (Some sixHotspots))
          (MapView.handleSearch sampleParseFloat render found w))
  /\ Done (LazyMapView.fetchHotspots_resume appProps la lo sampleClock (Fulfilled (Some sixHotspots))
             (LazyMapView.handleSearch sampleParseFloat render found w)).
Proof.
  apply (successful_search_end_to_end sampleParseFloat (withQuery (js "New York"))
           newYork [] sampleClock sixHotspots
           (MapView.handleSearch_resume sampleParseFloat (withQuery (js "New York"))
              (Fulfilled (Some [])) initialWorld));
    reflexivity.
Defined.
